(** * CleanFlux-AI JavaScript SDK ([src/index.js]): a shallow embedding

    The SDK is one class, [CleanFlux]: a constructor that validates the API
    key and normalises the base URL, a private [_request] that performs an
    authenticated POST and classifies the response, five capability methods
    that delegate to [_request], and [ping].

    The embedding follows the JavaScript text:
    - JavaScript data is the type [value]; the coercions the source relies on
      ([!x], [x || y], [typeof x], [x?.k], template literals,
      [JSON.stringify]) are functions on it, written after ECMA-262;
    - a synchronous call returns a [Completion] (normal or throw);
    - an [async] method returns a [Promise]: a tree that is settled or is
      waiting on one [fetch]; [run] plays it against a network and records
      the requests that were issued. *)

From Stdlib Require Import String Ascii List Bool NArith ZArith Lia.
From Stdlib Require Import DecimalString.
Import ListNotations.
Local Open Scope list_scope.
Local Open Scope string_scope.

(** ** The host's numbers

    A JavaScript number is an IEEE-754 double.  The SDK never computes with
    numbers: it only coerces the ones a caller or a server hands to it.  The
    embedding therefore keeps the number type abstract and takes from the
    host the three coercions the source can reach. *)
Class Host : Type := {
  number : Type;
  (** [ToBoolean]: [false] exactly for [+0], [-0] and [NaN]. *)
  Number_toBoolean : number -> bool;
  (** [Number::toString], as used by a template literal. *)
  Number_toString : number -> string;
  (** What [JSON.stringify] writes for a number: [None] stands for the
      literal [null] (written for [NaN] and the infinities), [Some m] for a
      number literal that reads back as [m]. *)
  Number_toJSON : number -> option number;
  Number_eq_dec : forall x y : number, {x = y} + {x <> y}
}.

(** A host whose numbers are the integers, printed in decimal.  It is used
    to evaluate the SDK on concrete inputs. *)
Definition Z_toString (z : Z) : string := NilZero.string_of_int (Z.to_int z).

#[global] Instance IntegerHost : Host := {|
  number := Z;
  Number_toBoolean := fun z => negb (Z.eqb z 0);
  Number_toString := Z_toString;
  Number_toJSON := fun z => Some z;
  Number_eq_dec := Z.eq_dec
|}.

(** ** JavaScript values *)
Module JS.

Section Values.
Context {H : Host}.

(** Plain data: what a caller can write as a literal and what
    [JSON.parse] can return.  An object is the list of its own properties
    in property order; functions, symbols and class instances are outside
    the model. *)
#[warnings="-register-all"]
Inductive value : Type :=
| Undefined
| Null
| Bool (b : bool)
| Num (n : number)
| Str (s : string)
| Arr (elements : list value)
| Obj (properties : list (string * value)).

(** Errors as the SDK can observe them.  [Error m st r] is
    [new Error(m)] with the own properties [status] and [response] when they
    were assigned; the other two are raised by the host. *)
Inductive exn : Type :=
| Error (message : string) (status : option N) (response : option value)
| TypeError
| SyntaxError.

Inductive Completion (A : Type) : Type :=
| Normal (a : A)
| Throw (e : exn).
#[global] Arguments Normal {A} a.
#[global] Arguments Throw {A} e.

(** [ToBoolean] (ECMA-262 7.1.2). *)
Definition ToBoolean (v : value) : bool :=
  match v with
  | Undefined | Null => false
  | Bool b => b
  | Num n => Number_toBoolean n
  | Str s => negb (String.eqb s "")
  | Arr _ | Obj _ => true
  end.

(** [typeof v]. *)
Definition typeof (v : value) : string :=
  match v with
  | Undefined => "undefined"
  | Null => "object"
  | Bool _ => "boolean"
  | Num _ => "number"
  | Str _ => "string"
  | Arr _ | Obj _ => "object"
  end.

(** [a || b]: [a] when it is truthy, else [b]. *)
Definition or (a b : value) : value := if ToBoolean a then a else b.

(** Own-property lookup in an object's property list. *)
Fixpoint own (k : string) (properties : list (string * value)) : option value :=
  match properties with
  | [] => None
  | (k', v) :: rest => if String.eqb k k' then Some v else own k rest
  end.

(** [v.k] for the property names the SDK reads ([baseUrl], [error],
    [message]); none of them is defined on a standard prototype, so the
    lookup finds an own property of an object or nothing.  Reading a
    property of [undefined] or [null] throws. *)
Definition Get (v : value) (k : string) : Completion value :=
  match v with
  | Undefined | Null => Throw TypeError
  | Obj properties =>
      match own k properties with Some x => Normal x | None => Normal Undefined end
  | Bool _ | Num _ | Str _ | Arr _ => Normal Undefined
  end.

(** [v?.k]. *)
Definition optGet (v : value) (k : string) : value :=
  match v with
  | Undefined | Null => Undefined
  | _ => match Get v k with Normal x => x | Throw _ => Undefined end
  end.

(** [ToString] (ECMA-262 7.1.17) on plain data; [None] is the [TypeError]
    of [OrdinaryToPrimitive].  An array is joined with commas, its
    [undefined] and [null] elements printing as the empty string.  An
    object prints through [Object.prototype.toString] unless an own
    property shadows [toString]: the own value is data, hence not callable,
    and [valueOf] returns the object itself, so no primitive is found. *)
Fixpoint ToString (v : value) : option string :=
  match v with
  | Undefined => Some "undefined"
  | Null => Some "null"
  | Bool true => Some "true"
  | Bool false => Some "false"
  | Num n => Some (Number_toString n)
  | Str s => Some s
  | Arr elements =>
      (fix join (l : list value) : option string :=
         match l with
         | [] => Some ""
         | x :: rest =>
             let element :=
               match x with
               | Undefined | Null => Some ""
               | _ => ToString x
               end in
             match element, rest with
             | None, _ => None
             | Some s, [] => Some s
             | Some s, _ :: _ =>
                 match join rest with
                 | Some t => Some (s ++ "," ++ t)
                 | None => None
                 end
             end
         end) elements
  | Obj properties =>
      match own "toString" properties with
      | Some _ => None
      | None => Some "[object Object]"
      end
  end.

(** What [JSON.stringify(v)] writes, as the JSON document the text
    denotes ([SerializeJSONProperty], ECMA-262 25.5.2): [None] is the
    result [undefined].  A property whose value serialises to [undefined]
    is left out; such an array element is written [null]. *)
Fixpoint JSON_stringify (v : value) : option value :=
  match v with
  | Undefined => None
  | Null => Some Null
  | Bool b => Some (Bool b)
  | Num n =>
      match Number_toJSON n with
      | Some m => Some (Num m)
      | None => Some Null
      end
  | Str s => Some (Str s)
  | Arr elements =>
      Some (Arr ((fix each (l : list value) : list value :=
                    match l with
                    | [] => []
                    | x :: rest =>
                        match JSON_stringify x with
                        | Some j => j :: each rest
                        | None => Null :: each rest
                        end
                    end) elements))
  | Obj properties =>
      Some (Obj ((fix each (l : list (string * value)) : list (string * value) :=
                    match l with
                    | [] => []
                    | (k, x) :: rest =>
                        match JSON_stringify x with
                        | Some j => (k, j) :: each rest
                        | None => each rest
                        end
                    end) properties))
  end.

(** Plain JSON data: no [undefined] anywhere and every number one that
    JSON text can carry exactly. *)
Fixpoint is_json (v : value) : bool :=
  match v with
  | Undefined => false
  | Null | Bool _ | Str _ => true
  | Num n =>
      match Number_toJSON n with
      | Some m => if Number_eq_dec n m then true else false
      | None => false
      end
  | Arr elements =>
      (fix all (l : list value) : bool :=
         match l with
         | [] => true
         | x :: rest => is_json x && all rest
         end) elements
  | Obj properties =>
      (fix all (l : list (string * value)) : bool :=
         match l with
         | [] => true
         | (_, x) :: rest => is_json x && all rest
         end) properties
  end.

End Values.

(** [s.replace(/\/$/, '')]: without the [m] flag [$] matches only at the
    end of the input, so the one possible match is a final ["/"]. *)
Fixpoint replace_trailing_slash (s : string) : string :=
  match s with
  | EmptyString => EmptyString
  | String c EmptyString => if Ascii.eqb c "/" then EmptyString else s
  | String c rest => String c (replace_trailing_slash rest)
  end.

(** [String.prototype.endsWith] and [String.prototype.includes]. *)
Fixpoint endsWith (s suffix : string) : bool :=
  String.eqb s suffix ||
  match s with
  | EmptyString => false
  | String _ rest => endsWith rest suffix
  end.

Fixpoint includes (s sub : string) : bool :=
  String.prefix sub s ||
  match s with
  | EmptyString => false
  | String _ rest => includes rest sub
  end.

(** A status code in a template literal: [response.status] is an unsigned
    short, and such an integer prints in decimal. *)
Definition status_toString (status : N) : string :=
  NilZero.string_of_uint (N.to_uint status).

End JS.

(** ** The network as the SDK sees it *)
Module Net.
Import JS.

Section Fetch.
Context {H : Host}.

(** The arguments of one [fetch(url, init)] call.  [body] is the JSON
    document of the request text; [None] is a request without a body. *)
Record Request : Type := {
  url : string;
  method : string;
  headers : list (string * string);
  body : option value
}.

(** The part of a [Response] the SDK reads: [response.status] and what
    [response.json()] settles to (fulfilled with the parsed body, or
    rejected when the body is not JSON). *)
Record Response : Type := {
  status : N;
  json : Completion value
}.

(** [response.ok], by the Fetch Standard: the status is in 200..299. *)
Definition ok (response : Response) : bool :=
  (200 <=? status response)%N && (status response <=? 299)%N.

(** An [async] computation: settled (fulfilled is [Normal], rejected is
    [Throw]), or suspended on a [fetch] until the host answers. *)
Inductive Promise (A : Type) : Type :=
| Settled (c : Completion A)
| Suspended (request : Request) (resume : Completion Response -> Promise A).
#[global] Arguments Settled {A} c.
#[global] Arguments Suspended {A} request resume.

Definition fetch (request : Request) : Promise Response :=
  Suspended request Settled.

(** [await p] followed by [k]: a rejection of [p] rejects the whole. *)
Fixpoint await {A B : Type} (p : Promise A) (k : A -> Promise B) : Promise B :=
  match p with
  | Settled (Normal a) => k a
  | Settled (Throw e) => Settled (Throw e)
  | Suspended request resume => Suspended request (fun c => await (resume c) k)
  end.

(** [p.catch(handler)] on a settled promise. *)
Definition catch {A : Type} (c : Completion A) (handler : exn -> A) : Completion A :=
  match c with
  | Normal a => Normal a
  | Throw e => Normal (handler e)
  end.

(** Play a promise against a network: the requests issued, in order, and
    the settlement. *)
Fixpoint run {A : Type} (network : Request -> Completion Response)
    (p : Promise A) : list Request * Completion A :=
  match p with
  | Settled c => ([], c)
  | Suspended request resume =>
      let (issued, c) := run network (resume (network request)) in
      (request :: issued, c)
  end.

End Fetch.
End Net.

Notation "x <- 'await' p ;; k" := (Net.await p (fun x => k))
  (at level 61, p at next level, right associativity).

(** ** class CleanFlux *)
Module CleanFlux.
Import JS Net.

Section Class.
Context {H : Host}.

(** The instance fields, as the constructor leaves them. *)
Record t : Type := {
  apiKey : string;
  baseUrl : string
}.

(** [constructor(apiKey, options = {})].  An argument that is not given is
    [Undefined]. *)
Definition constructor (apiKey options : value) : Completion t :=
  let options := match options with Undefined => Obj [] | _ => options end in
  if negb (ToBoolean apiKey) then
    Throw (Error "CleanFlux: API key is required. Get yours at https://cleanflux.ai/dashboard"
                 None None)
  else
    match apiKey with
    | Str key =>
        match Get options "baseUrl" with
        | Throw e => Throw e
        | Normal given =>
            match or given (Str "https://api.cleanflux.ai") with
            | Str base =>
                Normal {| apiKey := key; baseUrl := replace_trailing_slash base |}
            | _ => Throw TypeError (* no [replace] method to call *)
            end
        end
    | _ => (* typeof apiKey !== 'string' *)
        Throw (Error "CleanFlux: API key must be a string" None None)
    end.

(** [async _request(endpoint, payload)]. *)
Definition _request (this : t) (endpoint : string) (payload : value) : Promise value :=
  let url := baseUrl this ++ "/api/" ++ endpoint in
  response <- await fetch {|
    url := url;
    method := "POST";
    headers := [("x-api-key", apiKey this);
                ("Content-Type", "application/json");
                ("User-Agent", "cleanflux-js/1.0.0")];
    body := JSON_stringify payload
  |} ;;
  data <- await Settled (catch (json response) (fun _ => Null)) ;;
  if negb (ok response) then
    let message :=
      or (or (optGet data "error") (optGet data "message"))
         (Str ("Request failed with status " ++ status_toString (status response))) in
    match ToString message with
    | Some text =>
        Settled (Throw (Error ("CleanFlux API Error: " ++ text)
                              (Some (status response)) (Some data)))
    | None => Settled (Throw TypeError)
    end
  else
    Settled (Normal data).

Definition clean (this : t) (payload : value) : Promise value :=
  _request this "clean" payload.

Definition normalize (this : t) (payload : value) : Promise value :=
  _request this "normalize" payload.

Definition extractUrls (this : t) (payload : value) : Promise value :=
  _request this "extract-urls" payload.

Definition removeProfanity (this : t) (payload : value) : Promise value :=
  _request this "remove-profanity" payload.

Definition metadata (this : t) (payload : value) : Promise value :=
  _request this "metadata" payload.

(** [async ping()]. *)
Definition ping (this : t) : Promise value :=
  let url := baseUrl this ++ "/api/ping" in
  response <- await fetch {|
    url := url;
    method := "GET";
    headers := [("User-Agent", "cleanflux-js/1.0.0")];
    body := None
  |} ;;
  Settled (json response).

End Class.
End CleanFlux.

(** ** Vocabulary of the specification *)
Module Spec.
Import JS Net CleanFlux.

Section Vocabulary.
Context {H : Host}.

(** The capability methods of the class. *)
Inductive capability : Type :=
| Clean
| Normalize
| ExtractUrls
| RemoveProfanity
| Metadata.

Definition invoke (m : capability) : t -> value -> Promise value :=
  match m with
  | Clean => clean
  | Normalize => normalize
  | ExtractUrls => extractUrls
  | RemoveProfanity => removeProfanity
  | Metadata => metadata
  end.

(** The endpoint table of the specification (section 4.3). *)
Definition endpoint (m : capability) : string :=
  match m with
  | Clean => "clean"
  | Normalize => "normalize"
  | ExtractUrls => "extract-urls"
  | RemoveProfanity => "remove-profanity"
  | Metadata => "metadata"
  end.

(** The request shape of the specification (section 6): a POST to
    [{baseUrl}/api/{endpoint}] with the three headers and the payload as
    JSON body. *)
Definition dispatch_request (this : t) (endpoint : string) (payload : value) : Request :=
  {| url := baseUrl this ++ "/api/" ++ endpoint;
     method := "POST";
     headers := [("x-api-key", apiKey this);
                 ("Content-Type", "application/json");
                 ("User-Agent", "cleanflux-js/1.0.0")];
     body := JSON_stringify payload |}.

(** The ping shape of the specification (section 6). *)
Definition ping_request (this : t) : Request :=
  {| url := baseUrl this ++ "/api/ping";
     method := "GET";
     headers := [("User-Agent", "cleanflux-js/1.0.0")];
     body := None |}.

(** The requests a call issues against a network, and how it settles. *)
Definition issued {A : Type} (network : Request -> Completion Response)
    (p : Promise A) : list Request :=
  fst (run network p).

Definition outcome {A : Type} (network : Request -> Completion Response)
    (p : Promise A) : Completion A :=
  snd (run network p).

(** "The parsed body (or null)". *)
Definition parsed_body (response : Response) : value :=
  match json response with
  | Normal data => data
  | Throw _ => Null
  end.

(** The options the constructor documents: none, or an object whose
    [baseUrl], when it has one, is a string. *)
Definition documented_options (options : value) : Prop :=
  options = Undefined
  \/ exists properties, options = Obj properties
       /\ (own "baseUrl" properties = None
           \/ exists base, own "baseUrl" properties = Some (Str base)).

(** The first truthy candidate, else the fallback. *)
Fixpoint first_truthy (candidates : list value) (fallback : value) : value :=
  match candidates with
  | [] => fallback
  | x :: rest => if ToBoolean x then x else first_truthy rest fallback
  end.

(** The client of the specification's scenario: key ["sk_live_test"] and
    the default base URL. *)
Definition scenario_client : t :=
  {| apiKey := "sk_live_test"; baseUrl := "https://api.cleanflux.ai" |}.

(** A network that answers every request with the same response. *)
Definition answering (status : N) (json : Completion value)
    : Request -> Completion Response :=
  fun _ => Normal {| status := status; json := json |}.

End Vocabulary.
End Spec.

Import JS Net CleanFlux Spec.

(** ** Facts about the JavaScript layer *)

Lemma ok_range `{Host} (response : Response) :
  ok response = true <-> (200 <= status response /\ status response <= 299)%N.
Proof.
  unfold ok. rewrite andb_true_iff, !N.leb_le. reflexivity.
Qed.

Lemma ok_outside `{Host} (response : Response) :
  (status response < 200 \/ 299 < status response)%N -> ok response = false.
Proof.
  intros Hout. destruct (ok response) eqn:E; [|reflexivity].
  apply ok_range in E. lia.
Qed.

Lemma or_truthy `{Host} (a b : value) : ToBoolean a = true -> or a b = a.
Proof. intros Ha. unfold or. now rewrite Ha. Qed.

Lemma or_falsy `{Host} (a b : value) : ToBoolean a = false -> or a b = b.
Proof. intros Ha. unfold or. now rewrite Ha. Qed.

(** Serialising plain JSON data gives the data back. *)
Lemma JSON_stringify_json `{Host} :
  forall v : value, is_json v = true -> JSON_stringify v = Some v.
Proof.
  fix IH 1.
  intros [ | | b | n | s | elements | properties] Hj; simpl in *;
    try reflexivity; try discriminate.
  - destruct (Number_toJSON n) as [m|]; [|discriminate].
    destruct (Number_eq_dec n m) as [->|]; [reflexivity|discriminate].
  - do 2 f_equal.
    induction elements as [|x rest IHrest]; [reflexivity|].
    apply andb_true_iff in Hj as [Hx Hrest].
    rewrite (IH x Hx). f_equal. exact (IHrest Hrest).
  - do 2 f_equal.
    induction properties as [|[k x] rest IHrest]; [reflexivity|].
    apply andb_true_iff in Hj as [Hx Hrest].
    rewrite (IH x Hx). f_equal. exact (IHrest Hrest).
Qed.

(** ** Facts about [replace] on the base URL *)

Lemma replace_trailing_slash_app (s : string) :
  replace_trailing_slash (s ++ "/") = s.
Proof.
  induction s as [|c s IHs]; [reflexivity|].
  change (String c s ++ "/") with (String c (s ++ "/")).
  cbn [replace_trailing_slash]. rewrite IHs.
  destruct s; reflexivity.
Qed.

Lemma endsWith_app (s suffix : string) : endsWith (s ++ suffix) suffix = true.
Proof.
  induction s as [|c s IHs].
  - destruct suffix; simpl; [reflexivity|].
    rewrite Ascii.eqb_refl, String.eqb_refl. reflexivity.
  - change (String c s ++ suffix) with (String c (s ++ suffix)).
    cbn [endsWith]. rewrite IHs. apply orb_true_r.
Qed.

Lemma replace_trailing_slash_id (s : string) :
  endsWith s "/" = false -> replace_trailing_slash s = s.
Proof.
  induction s as [|c s IHs]; [reflexivity|].
  cbn [endsWith replace_trailing_slash]. intros E.
  apply orb_false_iff in E as [Ec Es].
  destruct s as [|d s'].
  - destruct (Ascii.eqb c "/") eqn:Ec'; [|reflexivity].
    apply Ascii.eqb_eq in Ec'. subst c. discriminate.
  - now rewrite (IHs Es).
Qed.

Lemma append_assoc (a b c : string) : (a ++ b) ++ c = a ++ (b ++ c).
Proof.
  induction a as [|x a IHa]; [reflexivity|].
  simpl. now rewrite IHa.
Qed.

Lemma append_cancel (a b c : string) : a ++ b = a ++ c -> b = c.
Proof.
  induction a as [|x a IHa]; simpl; intros E; [exact E|].
  injection E as E. exact (IHa E).
Qed.

Lemma endsWith_split (s suffix : string) :
  endsWith s suffix = true -> exists p, s = p ++ suffix.
Proof.
  induction s as [|c s IHs]; cbn [endsWith]; intros E;
    apply orb_true_iff in E as [E|E].
  - apply String.eqb_eq in E. exists "". now subst.
  - discriminate.
  - apply String.eqb_eq in E. exists "". now rewrite E.
  - destruct (IHs E) as [p ->]. now exists (String c p).
Qed.

Lemma replace_trailing_slash_once (s : string) :
  endsWith s "//" = false -> endsWith (replace_trailing_slash s) "/" = false.
Proof.
  intros Hdouble.
  destruct (endsWith s "/") eqn:Hs.
  - destruct (endsWith_split _ _ Hs) as [p ->].
    rewrite replace_trailing_slash_app.
    destruct (endsWith p "/") eqn:Hp; [|reflexivity].
    destruct (endsWith_split _ _ Hp) as [q ->].
    rewrite append_assoc in Hdouble.
    change ("/" ++ "/") with "//" in Hdouble.
    now rewrite endsWith_app in Hdouble.
  - now rewrite (replace_trailing_slash_id s Hs).
Qed.

(** ** How [_request] runs

    One request is issued whatever the network answers; the settlement
    depends on the answer. *)

Lemma invoke_request `{Host} (m : capability) (this : t) (payload : value) :
  invoke m this payload = _request this (endpoint m) payload.
Proof. destruct m; reflexivity. Qed.

(** Step [_request] up to the answer [Hnet] of the network. *)
Ltac run_request Hnet :=
  unfold _request, fetch; cbn [await run];
  unfold dispatch_request in Hnet; rewrite Hnet; cbn [await run].

Lemma run_request_rejected `{Host} (this : t) (endpoint : string) (payload : value)
    (network : Request -> Completion Response) (e : exn) :
  network (dispatch_request this endpoint payload) = Throw e ->
  run network (_request this endpoint payload)
  = ([dispatch_request this endpoint payload], Throw e).
Proof.
  intros Hnet. run_request Hnet. reflexivity.
Qed.

Lemma run_request_ok `{Host} (this : t) (endpoint : string) (payload : value)
    (network : Request -> Completion Response) (response : Response) :
  network (dispatch_request this endpoint payload) = Normal response ->
  ok response = true ->
  run network (_request this endpoint payload)
  = ([dispatch_request this endpoint payload], Normal (parsed_body response)).
Proof.
  intros Hnet Hok. run_request Hnet.
  unfold parsed_body, catch. destruct (json response); cbn [await run];
    rewrite Hok; reflexivity.
Qed.

Lemma run_request_not_ok `{Host} (this : t) (endpoint : string) (payload : value)
    (network : Request -> Completion Response) (response : Response) :
  network (dispatch_request this endpoint payload) = Normal response ->
  ok response = false ->
  run network (_request this endpoint payload)
  = ([dispatch_request this endpoint payload],
     let data := parsed_body response in
     match ToString
             (or (or (optGet data "error") (optGet data "message"))
                 (Str ("Request failed with status "
                       ++ status_toString (status response)))) with
     | Some text =>
         Throw (Error ("CleanFlux API Error: " ++ text)
                      (Some (status response)) (Some data))
     | None => Throw TypeError
     end).
Proof.
  intros Hnet Hok. run_request Hnet.
  unfold parsed_body, catch. destruct (json response); cbn [await run];
    rewrite Hok; cbn [negb];
    match goal with |- context [ToString ?v] => destruct (ToString v) end;
    reflexivity.
Qed.

Lemma issued_request `{Host} (this : t) (endpoint : string) (payload : value)
    (network : Request -> Completion Response) :
  issued network (_request this endpoint payload)
  = [dispatch_request this endpoint payload].
Proof.
  unfold issued.
  destruct (network (dispatch_request this endpoint payload)) as [response|e] eqn:Hnet.
  - destruct (ok response) eqn:Hok.
    + now rewrite (run_request_ok _ _ _ _ _ Hnet Hok).
    + now rewrite (run_request_not_ok _ _ _ _ _ Hnet Hok).
  - now rewrite (run_request_rejected _ _ _ _ _ Hnet).
Qed.

(** ** Routing and the request on the wire *)

(** C5. Each capability method issues exactly one request, to its fixed
    path under [{baseUrl}/api/]: [clean] to [clean], [normalize] to
    [normalize], [extractUrls] to [extract-urls], [removeProfanity] to
    [remove-profanity] (and not to [removeProfanity]), [metadata] to
    [metadata]. *)
Theorem capability_routing `{Host} (this : t) (payload : value)
    (network : Request -> Completion Response) :
  map url (issued network (clean this payload)) = [baseUrl this ++ "/api/clean"]
  /\ map url (issued network (normalize this payload))
     = [baseUrl this ++ "/api/normalize"]
  /\ map url (issued network (extractUrls this payload))
     = [baseUrl this ++ "/api/extract-urls"]
  /\ map url (issued network (removeProfanity this payload))
     = [baseUrl this ++ "/api/remove-profanity"]
  /\ map url (issued network (metadata this payload))
     = [baseUrl this ++ "/api/metadata"]
  /\ map url (issued network (removeProfanity this payload))
     <> [baseUrl this ++ "/api/removeProfanity"].
Proof.
  unfold clean, normalize, extractUrls, removeProfanity, metadata.
  rewrite !issued_request. cbn [map url dispatch_request].
  repeat split.
  intros E. injection E as E. apply append_cancel in E. discriminate.
Qed.

(** C8, as stated, fails: [JSON.stringify] leaves out a property whose
    value is [undefined], so the body on the wire has one key fewer than
    the payload. *)
Lemma undefined_property_left_out :
  own "options" [("text", Str "hi"); ("options", Undefined)] = Some Undefined
  /\ map body (issued (answering 200 (Normal Null))
                      (clean scenario_client
                             (Obj [("text", Str "hi"); ("options", Undefined)])))
     = [Some (Obj [("text", Str "hi")])].
Proof. split; reflexivity. Qed.

(** C8, amended. For every payload that is plain JSON data (no
    [undefined] inside, every number one that JSON can carry), the one
    request a capability method issues is a POST that carries exactly that
    payload as its JSON body: the same keys and values, nothing added,
    renamed, dropped, transformed or defaulted. *)
Theorem payload_fidelity `{Host} (m : capability) (this : t) (payload : value)
    (network : Request -> Completion Response) :
  is_json payload = true ->
  map body (issued network (invoke m this payload)) = [Some payload]
  /\ map method (issued network (invoke m this payload)) = ["POST"].
Proof.
  intros Hjson. rewrite invoke_request, issued_request.
  cbn [map body method dispatch_request].
  now rewrite (JSON_stringify_json payload Hjson).
Qed.

Lemma payload_fidelity_witness :
  map body
      (issued (answering 200 (Normal (Obj [("normalized", Str "Hello World")])))
              (normalize scenario_client
                 (Obj [("text", Str "  Hello   World  ");
                       ("options", Obj [("trim", Bool true);
                                        ("collapseWhitespace", Bool true)])])))
  = [Some (Obj [("text", Str "  Hello   World  ");
                ("options", Obj [("trim", Bool true);
                                 ("collapseWhitespace", Bool true)])])].
Proof.
  apply (payload_fidelity Normalize scenario_client
           (Obj [("text", Str "  Hello   World  ");
                 ("options", Obj [("trim", Bool true);
                                  ("collapseWhitespace", Bool true)])])).
  reflexivity.
Defined.

(** ** Success *)

(** C4. When the response status is in 200..299 and the body parses, a
    capability call is fulfilled with the parsed body itself, whatever its
    shape. *)
Theorem success_passthrough `{Host} (m : capability) (this : t) (payload : value)
    (network : Request -> Completion Response) (response : Response)
    (data : value) :
  network (dispatch_request this (endpoint m) payload) = Normal response ->
  (200 <= status response /\ status response <= 299)%N ->
  json response = Normal data ->
  outcome network (invoke m this payload) = Normal data.
Proof.
  intros Hnet Hstatus Hjson. apply ok_range in Hstatus.
  unfold outcome. rewrite invoke_request, (run_request_ok _ _ _ _ _ Hnet Hstatus).
  unfold parsed_body. now rewrite Hjson.
Qed.

Lemma success_passthrough_witness :
  outcome (answering 200 (Normal (Obj [("cleaned", Str "hi")])))
          (clean scenario_client (Obj [("text", Str "hi!!!")]))
  = Normal (Obj [("cleaned", Str "hi")]).
Proof.
  apply (success_passthrough Clean scenario_client (Obj [("text", Str "hi!!!")])
           (answering 200 (Normal (Obj [("cleaned", Str "hi")])))
           {| status := 200; json := Normal (Obj [("cleaned", Str "hi")]) |}).
  - reflexivity.
  - simpl. lia.
  - reflexivity.
Defined.

(** C9. When the response status is in 200..299 and the body is not JSON,
    a capability call is fulfilled with [null]: nothing is raised. *)
Theorem success_without_body `{Host} (m : capability) (this : t) (payload : value)
    (network : Request -> Completion Response) (response : Response)
    (e : exn) :
  network (dispatch_request this (endpoint m) payload) = Normal response ->
  (200 <= status response /\ status response <= 299)%N ->
  json response = Throw e ->
  outcome network (invoke m this payload) = Normal Null.
Proof.
  intros Hnet Hstatus Hjson. apply ok_range in Hstatus.
  unfold outcome. rewrite invoke_request, (run_request_ok _ _ _ _ _ Hnet Hstatus).
  unfold parsed_body. now rewrite Hjson.
Qed.

Lemma success_without_body_witness :
  outcome (answering 204 (Throw SyntaxError))
          (metadata scenario_client (Obj [("text", Str "hi")]))
  = Normal Null.
Proof.
  apply (success_without_body Metadata scenario_client (Obj [("text", Str "hi")])
           (answering 204 (Throw SyntaxError))
           {| status := 204; json := Throw SyntaxError |} SyntaxError).
  - reflexivity.
  - simpl. lia.
  - reflexivity.
Defined.

(** C7. In [_request], a body that is not JSON is taken as [null] and the
    parse error is dropped; the classification then runs on the status
    alone: fulfilled with [null] inside 200..299, and otherwise rejected
    with the generic message, the status and [null]. *)
Theorem unparsable_body_is_null `{Host} (this : t) (endpoint : string)
    (payload : value) (network : Request -> Completion Response)
    (response : Response) (e : exn) :
  network (dispatch_request this endpoint payload) = Normal response ->
  json response = Throw e ->
  outcome network (_request this endpoint payload)
  = if ok response then Normal Null
    else Throw (Error ("CleanFlux API Error: Request failed with status "
                       ++ status_toString (status response))
                      (Some (status response)) (Some Null)).
Proof.
  intros Hnet Hjson. unfold outcome.
  destruct (ok response) eqn:Hok.
  - rewrite (run_request_ok _ _ _ _ _ Hnet Hok).
    unfold parsed_body. now rewrite Hjson.
  - rewrite (run_request_not_ok _ _ _ _ _ Hnet Hok).
    unfold parsed_body. rewrite Hjson. reflexivity.
Qed.

Lemma unparsable_body_is_null_witness :
  outcome (answering 503 (Throw SyntaxError))
          (_request scenario_client "clean" (Obj [("text", Str "hi")]))
  = Throw (Error "CleanFlux API Error: Request failed with status 503"
                 (Some 503%N) (Some Null)).
Proof.
  exact (unparsable_body_is_null scenario_client "clean" (Obj [("text", Str "hi")])
           (answering 503 (Throw SyntaxError))
           {| status := 503; json := Throw SyntaxError |} SyntaxError
           eq_refl eq_refl).
Defined.

(** ** Ping *)

(** C3. [ping] issues one GET to [{baseUrl}/api/ping] whose only header is
    the client identifier and which has no body; it settles exactly as
    [response.json()] does, whatever the status: the status is never looked
    at and no error with a status is built. *)
Theorem ping_unclassified `{Host} (this : t)
    (network : Request -> Completion Response) :
  issued network (ping this)
  = [{| url := baseUrl this ++ "/api/ping";
        method := "GET";
        headers := [("User-Agent", "cleanflux-js/1.0.0")];
        body := None |}]
  /\ outcome network (ping this)
     = match network (ping_request this) with
       | Normal response => json response
       | Throw e => Throw e
       end.
Proof.
  unfold issued, outcome, ping, fetch, ping_request. cbn [await run].
  destruct (network _) as [response|e]; cbn [await run]; split; reflexivity.
Qed.

Example ping_non_2xx :
  outcome (answering 500 (Normal (Obj [("status", Str "down")]))) (ping scenario_client)
  = Normal (Obj [("status", Str "down")]).
Proof. reflexivity. Qed.

(** ** Construction *)

Lemma nonempty_truthy `{Host} (s : string) : s <> "" -> ToBoolean (Str s) = true.
Proof.
  intros Hs. simpl. apply negb_true_iff. now apply String.eqb_neq.
Qed.

(** The constructor on a usable key and an object that has a [baseUrl]. *)
Lemma constructor_base `{Host} (key : string) (properties : list (string * value))
    (given : value) :
  key <> "" ->
  own "baseUrl" properties = Some given ->
  constructor (Str key) (Obj properties)
  = match or given (Str "https://api.cleanflux.ai") with
    | Str base => Normal {| apiKey := key; baseUrl := replace_trailing_slash base |}
    | _ => Throw TypeError
    end.
Proof.
  intros Hkey Hown. unfold constructor.
  rewrite (nonempty_truthy key Hkey). cbn [negb Get]. now rewrite Hown.
Qed.

(** C10. When [options.baseUrl] is present but falsy, as the empty string
    is, the constructor stores the default production URL. *)
Theorem empty_base_url_falls_back `{Host} (key : string)
    (properties : list (string * value)) (given : value) :
  key <> "" ->
  own "baseUrl" properties = Some given ->
  ToBoolean given = false ->
  constructor (Str key) (Obj properties)
  = Normal {| apiKey := key; baseUrl := "https://api.cleanflux.ai" |}.
Proof.
  intros Hkey Hown Hfalsy.
  rewrite (constructor_base key properties given Hkey Hown).
  now rewrite (or_falsy _ _ Hfalsy).
Qed.

Lemma empty_base_url_falls_back_witness :
  constructor (Str "sk_live_test") (Obj [("baseUrl", Str "")])
  = Normal {| apiKey := "sk_live_test"; baseUrl := "https://api.cleanflux.ai" |}.
Proof.
  apply (empty_base_url_falls_back "sk_live_test" [("baseUrl", Str "")] (Str "")).
  - discriminate.
  - reflexivity.
  - reflexivity.
Defined.

(** C6, as stated, fails: the slash is removed once, so a base URL that
    ends in two slashes keeps one and the request URL has a double slash
    where the endpoint is joined. *)
Lemma double_trailing_slash_survives :
  constructor (Str "sk_live_test") (Obj [("baseUrl", Str "https://x.test//")])
  = Normal {| apiKey := "sk_live_test"; baseUrl := "https://x.test/" |}
  /\ map url (issued (answering 200 (Normal Null))
                     (clean {| apiKey := "sk_live_test"; baseUrl := "https://x.test/" |}
                            (Obj [("text", Str "hi")])))
     = ["https://x.test//api/clean"]
  /\ includes "https://x.test//api/clean" "//api/" = true.
Proof. repeat split. Qed.

(** C6, amended. For a non-empty [baseUrl] string the constructor stores
    it with one final slash removed: a final ["/"] is dropped, once; a
    string without a final slash is stored unchanged; every request URL is
    the stored base followed by ["/api/"] and the endpoint; and the stored
    base ends in no slash, so that the join makes no double slash, whenever
    the given string does not end in two slashes. *)
Theorem base_url_normalization `{Host} (key base : string)
    (properties : list (string * value)) :
  key <> "" ->
  base <> "" ->
  own "baseUrl" properties = Some (Str base) ->
  exists this : t,
    constructor (Str key) (Obj properties) = Normal this
    /\ (forall front, base = front ++ "/" -> baseUrl this = front)
    /\ (endsWith base "/" = false -> baseUrl this = base)
    /\ (forall endpoint payload network,
          map url (issued network (_request this endpoint payload))
          = [baseUrl this ++ "/api/" ++ endpoint])
    /\ (endsWith base "//" = false -> endsWith (baseUrl this) "/" = false).
Proof.
  intros Hkey Hbase Hown.
  exists {| apiKey := key; baseUrl := replace_trailing_slash base |}.
  rewrite (constructor_base key properties (Str base) Hkey Hown).
  rewrite (or_truthy _ _ (nonempty_truthy base Hbase)).
  cbn [baseUrl]. repeat split.
  - intros front ->. apply replace_trailing_slash_app.
  - apply replace_trailing_slash_id.
  - intros endpoint payload network. now rewrite issued_request.
  - apply replace_trailing_slash_once.
Qed.

Lemma base_url_normalization_witness :
  exists this : t,
    constructor (Str "sk_live_test") (Obj [("baseUrl", Str "https://x.test/")])
    = Normal this
    /\ baseUrl this = "https://x.test"
    /\ endsWith (baseUrl this) "/" = false.
Proof.
  destruct (base_url_normalization "sk_live_test" "https://x.test/"
              [("baseUrl", Str "https://x.test/")])
    as [this [Hnew [Hstrip [_ [_ Hjoin]]]]].
  - discriminate.
  - discriminate.
  - reflexivity.
  - exists this. split; [exact Hnew|]. split.
    + apply (Hstrip "https://x.test"). reflexivity.
    + apply Hjoin. reflexivity.
Defined.

(** C2, as stated, fails: a key of a wrong type that is falsy, such as
    [false], is reported as missing, not as a key of the wrong type. *)
Lemma falsy_key_reported_missing :
  typeof (Bool false) = "boolean"
  /\ constructor (Bool false) Undefined
     = Throw (Error "CleanFlux: API key is required. Get yours at https://cleanflux.ai/dashboard"
                    None None)
  /\ includes "CleanFlux: API key is required. Get yours at https://cleanflux.ai/dashboard"
              "API key must be a string" = false.
Proof. repeat split. Qed.

(** C2, amended. The constructor throws a plain [Error]: for a falsy key
    ([undefined], [null], [false], [0], [NaN], the empty string) the message
    says the key is required; for a truthy key that is not a string it says
    the key must be a string; with a non-empty string key and documented
    options it returns the instance, which holds that key. *)
Theorem api_key_validation `{Host} (apiKey options : value) :
  (ToBoolean apiKey = false ->
   constructor apiKey options
   = Throw (Error "CleanFlux: API key is required. Get yours at https://cleanflux.ai/dashboard"
                  None None))
  /\ (ToBoolean apiKey = true -> typeof apiKey <> "string" ->
      constructor apiKey options
      = Throw (Error "CleanFlux: API key must be a string" None None))
  /\ (forall key : string, apiKey = Str key -> key <> "" ->
      documented_options options ->
      exists this : t,
        constructor apiKey options = Normal this /\ CleanFlux.apiKey this = key).
Proof.
  split; [|split].
  - intros Hfalsy. unfold constructor. now rewrite Hfalsy.
  - intros Htruthy Htype. unfold constructor. rewrite Htruthy. cbn [negb].
    destruct apiKey; try reflexivity. now contradiction Htype.
  - intros key -> Hkey [->|[properties [-> [Hnone|[base Hbase]]]]].
    + exists {| apiKey := key; baseUrl := "https://api.cleanflux.ai" |}.
      split; [|reflexivity].
      unfold constructor. now rewrite (nonempty_truthy key Hkey).
    + exists {| apiKey := key; baseUrl := "https://api.cleanflux.ai" |}.
      split; [|reflexivity].
      unfold constructor. rewrite (nonempty_truthy key Hkey).
      cbn [negb Get]. now rewrite Hnone.
    + rewrite (constructor_base key properties (Str base) Hkey Hbase).
      unfold or. destruct (ToBoolean (Str base)); eexists; split; reflexivity.
Qed.

Lemma api_key_validation_witness :
  constructor Undefined Undefined
  = Throw (Error "CleanFlux: API key is required. Get yours at https://cleanflux.ai/dashboard"
                 None None)
  /\ constructor (Arr [Str "sk_live_test"]) Undefined
     = Throw (Error "CleanFlux: API key must be a string" None None)
  /\ exists this : t,
       constructor (Str "sk_live_test") Undefined = Normal this
       /\ CleanFlux.apiKey this = "sk_live_test".
Proof.
  split; [|split].
  - apply (proj1 (api_key_validation Undefined Undefined)). reflexivity.
  - apply (proj1 (proj2 (api_key_validation (Arr [Str "sk_live_test"]) Undefined))).
    + reflexivity.
    + discriminate.
  - apply (proj2 (proj2 (api_key_validation (Str "sk_live_test") Undefined))
             "sk_live_test").
    + reflexivity.
    + discriminate.
    + left. reflexivity.
Defined.

(** ** Failure *)

(** C1, as stated, fails: an [error] field that is present but falsy is
    passed over; here the body has [error: false] and the message is taken
    from [message]. *)
Lemma falsy_error_field_skipped :
  Get (Obj [("error", Bool false); ("message", Str "oops")]) "error"
  = Normal (Bool false)
  /\ ToString (Bool false) = Some "false"
  /\ outcome (answering 400 (Normal (Obj [("error", Bool false);
                                          ("message", Str "oops")])))
             (clean scenario_client (Obj [("text", Str "hi")]))
     = Throw (Error "CleanFlux API Error: oops" (Some 400%N)
                    (Some (Obj [("error", Bool false); ("message", Str "oops")])))
  /\ includes "CleanFlux API Error: oops" "false" = false.
Proof. repeat split. Qed.

(** C1, amended. When the response status is outside 200..299 a capability
    call is rejected.  The message is ["CleanFlux API Error: "] followed by
    the text of the first truthy one of: the [error] field of the parsed
    body, its [message] field, the fallback ["Request failed with status
    {code}"]; the error carries the status and the parsed body (or [null]).
    When the chosen field has no string form the rejection is the host's
    [TypeError]. *)
Theorem api_error_message_priority `{Host} (m : capability) (this : t)
    (payload : value) (network : Request -> Completion Response)
    (response : Response) :
  network (dispatch_request this (endpoint m) payload) = Normal response ->
  (status response < 200 \/ 299 < status response)%N ->
  outcome network (invoke m this payload)
  = match ToString
            (first_truthy
               [optGet (parsed_body response) "error";
                optGet (parsed_body response) "message"]
               (Str ("Request failed with status "
                     ++ status_toString (status response)))) with
    | Some text =>
        Throw (Error ("CleanFlux API Error: " ++ text)
                     (Some (status response)) (Some (parsed_body response)))
    | None => Throw TypeError
    end.
Proof.
  intros Hnet Hstatus. apply ok_outside in Hstatus.
  unfold outcome.
  rewrite invoke_request, (run_request_not_ok _ _ _ _ _ Hnet Hstatus).
  cbn [snd first_truthy].
  destruct (ToBoolean (optGet (parsed_body response) "error")) eqn:Herror.
  - now rewrite (or_truthy _ (optGet (parsed_body response) "message") Herror),
      (or_truthy _ _ Herror).
  - rewrite (or_falsy _ (optGet (parsed_body response) "message") Herror).
    destruct (ToBoolean (optGet (parsed_body response) "message")) eqn:Hmessage.
    + now rewrite (or_truthy _ _ Hmessage).
    + now rewrite (or_falsy _ _ Hmessage).
Qed.

Lemma api_error_message_priority_witness :
  outcome (answering 400 (Normal (Obj [("error", Str "bad text")])))
          (clean scenario_client (Obj [("text", Str "hi")]))
  = Throw (Error "CleanFlux API Error: bad text" (Some 400%N)
                 (Some (Obj [("error", Str "bad text")]))).
Proof.
  apply (api_error_message_priority Clean scenario_client (Obj [("text", Str "hi")])
           (answering 400 (Normal (Obj [("error", Str "bad text")])))
           {| status := 400; json := Normal (Obj [("error", Str "bad text")]) |}).
  - reflexivity.
  - right. reflexivity.
Defined.

(** The three responses of property P5 of the specification. *)
Example P5_error_field :
  outcome (answering 400 (Normal (Obj [("error", Str "bad text")])))
          (clean {| apiKey := "k"; baseUrl := "https://x.test" |} (Obj []))
  = Throw (Error "CleanFlux API Error: bad text" (Some 400%N)
                 (Some (Obj [("error", Str "bad text")]))).
Proof. reflexivity. Qed.

Example P5_message_field :
  outcome (answering 500 (Normal (Obj [("message", Str "oops")])))
          (clean {| apiKey := "k"; baseUrl := "https://x.test" |} (Obj []))
  = Throw (Error "CleanFlux API Error: oops" (Some 500%N)
                 (Some (Obj [("message", Str "oops")]))).
Proof. reflexivity. Qed.

Example P5_fallback :
  outcome (answering 503 (Throw SyntaxError))
          (clean {| apiKey := "k"; baseUrl := "https://x.test" |} (Obj []))
  = Throw (Error "CleanFlux API Error: Request failed with status 503"
                 (Some 503%N) (Some Null)).
Proof. reflexivity. Qed.

(** ** Further properties of the class *)

(** *** Construction *)

Lemma constructor_key `{Host} (key : string) (options : value) (this : t) :
  constructor (Str key) options = Normal this -> apiKey this = key.
Proof.
  unfold constructor. destruct (ToBoolean (Str key)); cbn [negb]; [|discriminate].
  destruct (Get _ "baseUrl") as [given|e]; [|discriminate].
  destruct (or given _); try discriminate.
  intros E. injection E as <-. reflexivity.
Qed.







(** X4. A base URL given with or without its final slash builds the same
    client. *)
Theorem trailing_slash_insensitive `{Host} (key base : string) :
  key <> "" ->
  base <> "" ->
  endsWith base "/" = false ->
  constructor (Str key) (Obj [("baseUrl", Str (base ++ "/"))])
  = constructor (Str key) (Obj [("baseUrl", Str base)]).
Proof.
  intros Hkey Hbase Hslash.
  rewrite (constructor_base key [("baseUrl", Str (base ++ "/"))]
             (Str (base ++ "/")) Hkey eq_refl).
  rewrite (constructor_base key [("baseUrl", Str base)] (Str base) Hkey eq_refl).
  assert (Hne : base ++ "/" <> "") by (destruct base; discriminate).
  rewrite (or_truthy _ _ (nonempty_truthy _ Hne)).
  rewrite (or_truthy _ _ (nonempty_truthy _ Hbase)).
  now rewrite replace_trailing_slash_app, (replace_trailing_slash_id base Hslash).
Qed.

Lemma trailing_slash_insensitive_witness :
  constructor (Str "sk_live_test") (Obj [("baseUrl", Str "https://x.test/")])
  = constructor (Str "sk_live_test") (Obj [("baseUrl", Str "https://x.test")]).
Proof.
  apply (trailing_slash_insensitive "sk_live_test" "https://x.test").
  - discriminate.
  - discriminate.
  - reflexivity.
Defined.

(** X5. The [replace] of the constructor removes nothing but one final
    slash: its result is the input, or the input is the result followed by
    ["/"]; which one is decided by whether the input ends in a slash. *)
Theorem replace_removes_one_slash (s : string) :
  (endsWith s "/" = false /\ replace_trailing_slash s = s)
  \/ (endsWith s "/" = true /\ s = replace_trailing_slash s ++ "/").
Proof.
  destruct (endsWith s "/") eqn:Hs.
  - right. split; [reflexivity|].
    destruct (endsWith_split _ _ Hs) as [front ->].
    now rewrite replace_trailing_slash_app.
  - left. split; [reflexivity|]. now apply replace_trailing_slash_id.
Qed.

(** *** Requests *)

(** X6. When [fetch] itself rejects (no response at all), a capability
    call is rejected with that same error, unwrapped, after the one request:
    nothing is retried and no error of the SDK's own is built. *)
Theorem transport_failure_propagates `{Host} (m : capability) (this : t)
    (payload : value) (network : Request -> Completion Response) (e : exn) :
  network (dispatch_request this (endpoint m) payload) = Throw e ->
  run network (invoke m this payload)
  = ([dispatch_request this (endpoint m) payload], Throw e).
Proof.
  intros Hnet. rewrite invoke_request.
  exact (run_request_rejected this (endpoint m) payload network e Hnet).
Qed.

Lemma transport_failure_propagates_witness :
  run (fun _ => Throw TypeError) (extractUrls scenario_client (Obj [("text", Str "hi")]))
  = ([dispatch_request scenario_client "extract-urls" (Obj [("text", Str "hi")])],
     Throw TypeError).
Proof.
  exact (transport_failure_propagates ExtractUrls scenario_client
           (Obj [("text", Str "hi")]) (fun _ => Throw TypeError) TypeError eq_refl).
Defined.

(** X7. A capability call is fulfilled exactly when the network answered
    with a status in 200..299: a transport failure and every other status
    reject it, and a 2xx status never does, whatever the body. *)
Theorem fulfilled_iff_2xx `{Host} (m : capability) (this : t) (payload : value)
    (network : Request -> Completion Response) :
  (exists data, outcome network (invoke m this payload) = Normal data)
  <-> (exists response,
         network (dispatch_request this (endpoint m) payload) = Normal response
         /\ (200 <= status response /\ status response <= 299)%N).
Proof.
  unfold outcome. rewrite invoke_request.
  destruct (network (dispatch_request this (endpoint m) payload))
    as [response|e] eqn:Hnet.
  - destruct (ok response) eqn:Hok.
    + rewrite (run_request_ok _ _ _ _ _ Hnet Hok). split.
      * intros _. exists response. split; [reflexivity|]. now apply ok_range.
      * intros _. now exists (parsed_body response).
    + rewrite (run_request_not_ok _ _ _ _ _ Hnet Hok). cbn [snd]. split.
      * intros [data Hdata].
        destruct (ToString _) in Hdata; discriminate.
      * intros [response' [E Hrange]]. injection E as <-.
        apply ok_range in Hrange. congruence.
  - rewrite (run_request_rejected _ _ _ _ _ Hnet). cbn [snd]. split.
    + intros [data Hdata]. discriminate.
    + intros [response [E _]]. discriminate.
Qed.

(** X8. A client that the constructor built from a key sends that key, as
    given, in the [x-api-key] header of every capability request, with the
    JSON content type and the client identifier. *)
Theorem constructed_client_sends_key `{Host} (key : string) (options : value)
    (this : t) (m : capability) (payload : value)
    (network : Request -> Completion Response) :
  constructor (Str key) options = Normal this ->
  map headers (issued network (invoke m this payload))
  = [[("x-api-key", key);
      ("Content-Type", "application/json");
      ("User-Agent", "cleanflux-js/1.0.0")]].
Proof.
  intros Hnew. rewrite invoke_request, issued_request.
  cbn [map headers dispatch_request].
  now rewrite (constructor_key key options this Hnew).
Qed.

Lemma constructed_client_sends_key_witness :
  map headers (issued (answering 200 (Normal Null))
                      (clean scenario_client (Obj [("text", Str "hi")])))
  = [[("x-api-key", "sk_live_test");
      ("Content-Type", "application/json");
      ("User-Agent", "cleanflux-js/1.0.0")]].
Proof.
  exact (constructed_client_sends_key "sk_live_test" Undefined scenario_client
           Clean (Obj [("text", Str "hi")]) (answering 200 (Normal Null)) eq_refl).
Defined.


(** X10. When a non-2xx body has an object as its [error] field (one
    without a [toString] property of its own), the message names no detail:
    it is ["CleanFlux API Error: [object Object]"]; the detail stays
    reachable through the body the error carries. *)
Theorem object_error_field `{Host} (m : capability) (this : t) (payload : value)
    (network : Request -> Completion Response) (response : Response)
    (properties detail : list (string * value)) :
  network (dispatch_request this (endpoint m) payload) = Normal response ->
  (status response < 200 \/ 299 < status response)%N ->
  json response = Normal (Obj properties) ->
  own "error" properties = Some (Obj detail) ->
  own "toString" detail = None ->
  outcome network (invoke m this payload)
  = Throw (Error "CleanFlux API Error: [object Object]"
                 (Some (status response)) (Some (Obj properties))).
Proof.
  intros Hnet Hstatus Hjson Herror Hdetail. apply ok_outside in Hstatus.
  unfold outcome.
  rewrite invoke_request, (run_request_not_ok _ _ _ _ _ Hnet Hstatus).
  unfold parsed_body. rewrite Hjson. cbn [snd optGet Get].
  rewrite Herror. unfold or. cbn [ToBoolean ToString].
  now rewrite Hdetail.
Qed.

Lemma object_error_field_witness :
  outcome (answering 422 (Normal (Obj [("error", Obj [("code", Str "E_TEXT")])])))
          (clean scenario_client (Obj [("text", Str "hi")]))
  = Throw (Error "CleanFlux API Error: [object Object]" (Some 422%N)
                 (Some (Obj [("error", Obj [("code", Str "E_TEXT")])]))).
Proof.
  apply (object_error_field Clean scenario_client (Obj [("text", Str "hi")])
           (answering 422 (Normal (Obj [("error", Obj [("code", Str "E_TEXT")])])))
           {| status := 422;
              json := Normal (Obj [("error", Obj [("code", Str "E_TEXT")])]) |}
           [("error", Obj [("code", Str "E_TEXT")])] [("code", Str "E_TEXT")]).
  - reflexivity.
  - right. reflexivity.
  - reflexivity.
  - reflexivity.
  - reflexivity.
Defined.
